(** * route53Update: a dynamic-DNS updater for the apex A record of a domain

    Shallow embedding of [main.go].  The program is a straight line of
    calls to the outside world (the ipify echo service, the AWS
    configuration loader and three Route 53 operations), so it is written
    in a small monad that threads the provider's state, records every
    observable action in a trace and stops at [log.Fatalf] or at a run-time
    panic.  The outside world is a parameter: every theorem quantifies over
    all of its possible answers. *)

From Stdlib Require Import String Ascii List ZArith Bool Lia.
Import ListNotations.
Local Open Scope string_scope.

(** ** Go values *)

(** A Go [error] is represented by the text of its [Error()] method, which
    is all the program ever does with one ([%v] in a format string). *)
Definition error := string.

(** A Go result pair [(value, err)] of a call that follows the convention
    "the value is meaningful only when [err == nil]". *)
Inductive result (A : Type) : Type :=
| Ok (a : A)
| Err (err : error).
Arguments Ok {A} a.
Arguments Err {A} err.

(** Run-time panics the program can raise: indexing a slice out of range. *)
Inductive panic : Type :=
| IndexOutOfRange (index length : nat).

(** The line feed written as [\n] in the format strings of the source. *)
Definition nl : string := String (ascii_of_nat 10) EmptyString.

(** ** The SDK's data types (package [types] and [route53])

    Only the fields the program reads or sets are kept.  The members the
    SDK documents as required ([Name], [Id], [Type], [Value]) are plain
    values; [TTL] is optional ([*int64]) and [ResourceRecords] is a slice
    that may be empty (it is for alias records). *)

Definition RRType := string.
Definition RRTypeA : RRType := "A".

Inductive ChangeAction : Type :=
| ChangeActionCreate
| ChangeActionDelete
| ChangeActionUpsert.

Record HostedZone : Type := mkHostedZone
  { hz_Id : string;
    hz_Name : string }.

Record ResourceRecord : Type := mkResourceRecord
  { rr_Value : string }.

Record ResourceRecordSet : Type := mkResourceRecordSet
  { rrs_Name : string;
    rrs_Type : RRType;
    rrs_ResourceRecords : list ResourceRecord;
    rrs_TTL : option Z }.

Record Change : Type := mkChange
  { ch_Action : ChangeAction;
    ch_ResourceRecordSet : ResourceRecordSet }.

Record ChangeBatch : Type := mkChangeBatch
  { cb_Changes : list Change }.

Record ChangeInfo : Type := mkChangeInfo
  { ci_Id : string }.

Record ListHostedZonesByNameInput : Type := mkListHostedZonesByNameInput
  { lhz_DNSName : string }.

Record ListHostedZonesByNameOutput : Type := mkListHostedZonesByNameOutput
  { lhz_HostedZones : list HostedZone }.

Record ListResourceRecordSetsInput : Type := mkListResourceRecordSetsInput
  { lrs_HostedZoneId : string }.

Record ListResourceRecordSetsOutput : Type := mkListResourceRecordSetsOutput
  { lrs_ResourceRecordSets : list ResourceRecordSet }.

Record ChangeResourceRecordSetsInput : Type := mkChangeResourceRecordSetsInput
  { crs_ChangeBatch : ChangeBatch;
    crs_HostedZoneId : string }.

Record ChangeResourceRecordSetsOutput : Type := mkChangeResourceRecordSetsOutput
  { crs_ChangeInfo : ChangeInfo }.

(** How a computation ends: it returns a value, the process exits with a
    status ([log.Fatalf] calls [os.Exit(1)]), or the Go run time panics. *)
Inductive outcome (A : Type) : Type :=
| Returned (a : A)
| Exited (status : Z)
| Panicked (p : panic).
Arguments Returned {A} a.
Arguments Exited {A} status.
Arguments Panicked {A} p.

Section Program.

(** [Cfg] is the SDK's [aws.Config]; [S] is whatever state the DNS provider
    keeps.  Both are opaque to the program. *)
Context {Cfg S : Type}.

(** [route53.NewFromConfig(cfg)]: the client handle wraps the configuration. *)
Record Client : Type := NewFromConfig
  { client_cfg : Cfg }.

(** ** The outside world

    What a run can observe: the argument vector, the answer of the echo
    service, the outcome of loading the configuration, and the provider's
    three operations.  The two listing operations read the provider's
    state; only [ChangeResourceRecordSets] may replace it. *)
Record World : Type := mkWorld
  { os_Args : list string;
    ipify_GetIp : result string;
    config_LoadDefaultConfig : result Cfg;
    route53_ListHostedZonesByName :
      Client -> S -> ListHostedZonesByNameInput -> result ListHostedZonesByNameOutput;
    route53_ListResourceRecordSets :
      Client -> S -> ListResourceRecordSetsInput -> result ListResourceRecordSetsOutput;
    route53_ChangeResourceRecordSets :
      Client -> S -> ChangeResourceRecordSetsInput -> S * result ChangeResourceRecordSetsOutput }.

(** ** Observable actions, in the order they happen *)
Inductive event : Type :=
| EvGetIp (r : result string)
| EvLoadDefaultConfig (r : result Cfg)
| EvListHostedZonesByName (req : ListHostedZonesByNameInput) (r : result ListHostedZonesByNameOutput)
| EvListResourceRecordSets (req : ListResourceRecordSetsInput) (r : result ListResourceRecordSetsOutput)
| EvChangeResourceRecordSets (params : ChangeResourceRecordSetsInput) (r : result ChangeResourceRecordSetsOutput)
| EvPrintf (text : string)
| EvFatalf (text : string).

(** ** The monad *)

Record Run (A : Type) : Type := mkRun
  { trace : list event;
    provider : S;
    outcome_of : outcome A }.
Arguments mkRun {A} trace provider outcome_of.
Arguments trace {A} r.
Arguments provider {A} r.
Arguments outcome_of {A} r.

Definition M (A : Type) : Type := World -> S -> Run A.

Definition ret {A : Type} (a : A) : M A :=
  fun _ st => mkRun [] st (Returned a).

Definition bind {A B : Type} (m : M A) (k : A -> M B) : M B :=
  fun w st =>
    match m w st with
    | mkRun t st' (Returned a) =>
        match k a w st' with
        | mkRun t' st'' o => mkRun (t ++ t')%list st'' o
        end
    | mkRun t st' (Exited status) => mkRun t st' (Exited status)
    | mkRun t st' (Panicked p) => mkRun t st' (Panicked p)
    end.

Notation "x <- m ;; k" := (bind m (fun x => k))
  (at level 100, m at next level, right associativity).
Notation "m ;;; k" := (bind m (fun _ => k))
  (at level 100, right associativity).

(** [fmt.Printf] with the format already expanded. *)
Definition Printf (text : string) : M unit :=
  fun _ st => mkRun [EvPrintf text] st (Returned tt).

(** [log.Fatalf] with the format already expanded: the message goes to the
    log (the logger's time stamp and final line feed are not recorded) and
    the process exits with status 1. *)
Definition Fatalf {A : Type} (text : string) : M A :=
  fun _ st => mkRun [EvFatalf text] st (Exited 1).

(** Slice indexing [s[i]]: a run-time panic when [i] is out of range. *)
Definition index {A : Type} (s : list A) (i : nat) : M A :=
  fun _ st =>
    match nth_error s i with
    | Some x => mkRun [] st (Returned x)
    | None => mkRun [] st (Panicked (IndexOutOfRange i (length s)))
    end.

Definition Args : M (list string) :=
  fun w st => mkRun [] st (Returned (os_Args w)).

Definition GetIp : M (result string) :=
  fun w st => let r := ipify_GetIp w in mkRun [EvGetIp r] st (Returned r).

Definition LoadDefaultConfig : M (result Cfg) :=
  fun w st =>
    let r := config_LoadDefaultConfig w in
    mkRun [EvLoadDefaultConfig r] st (Returned r).

Definition ListHostedZonesByName (client : Client) (req : ListHostedZonesByNameInput)
  : M (result ListHostedZonesByNameOutput) :=
  fun w st =>
    let r := route53_ListHostedZonesByName w client st req in
    mkRun [EvListHostedZonesByName req r] st (Returned r).

Definition ListResourceRecordSets (client : Client) (req : ListResourceRecordSetsInput)
  : M (result ListResourceRecordSetsOutput) :=
  fun w st =>
    let r := route53_ListResourceRecordSets w client st req in
    mkRun [EvListResourceRecordSets req r] st (Returned r).

Definition ChangeResourceRecordSets (client : Client) (params : ChangeResourceRecordSetsInput)
  : M (result ChangeResourceRecordSetsOutput) :=
  fun w st =>
    let sr := route53_ChangeResourceRecordSets w client st params in
    mkRun [EvChangeResourceRecordSets params (snd sr)] (fst sr) (Returned (snd sr)).

(** ** The program *)

(** The loop of [GetHostedZone]: the first zone whose name is the domain. *)
Fixpoint GetHostedZone_range (zones : list HostedZone) (domain : string)
  : result HostedZone :=
  match zones with
  | [] => Err ("Can't match domain " ++ domain ++ " to zone")
  | zone :: rest =>
      if String.eqb (hz_Name zone) domain then Ok zone
      else GetHostedZone_range rest domain
  end.

Definition GetHostedZone (client : Client) (domain : string) : M (result HostedZone) :=
  let req := mkListHostedZonesByNameInput domain in
  r <- ListHostedZonesByName client req ;;
  match r with
  | Err err => ret (Err ("Failed to get hosted zones: " ++ err))
  | Ok res => ret (GetHostedZone_range (lhz_HostedZones res) domain)
  end.

(** The loop of [GetARecIp]: at the first record set named like the domain
    and of type A, element 0 of its values is read. *)
Fixpoint GetARecIp_range (recs : list ResourceRecordSet) (domain : string)
  : M (result string) :=
  match recs with
  | [] => ret (Err "Could not find A rec for top level name")
  | rec :: rest =>
      if String.eqb (rrs_Name rec) domain && String.eqb (rrs_Type rec) RRTypeA then
        first <- index (rrs_ResourceRecords rec) 0 ;;
        ret (Ok (rr_Value first))
      else GetARecIp_range rest domain
  end.

Definition GetARecIp (client : Client) (zone : string) (domain : string)
  : M (result string) :=
  let req := mkListResourceRecordSetsInput zone in
  r <- ListResourceRecordSets client req ;;
  match r with
  | Err err => ret (Err err)
  | Ok recs => GetARecIp_range (lrs_ResourceRecordSets recs) domain
  end.

Definition UpdateIp (client : Client) (zone : string) (domain : string) (ip : string)
  : M (result ChangeResourceRecordSetsOutput) :=
  let change :=
    mkChange ChangeActionUpsert
      (mkResourceRecordSet domain RRTypeA [mkResourceRecord ip] (Some 300%Z)) in
  let params :=
    mkChangeResourceRecordSetsInput (mkChangeBatch [change]) zone in
  ChangeResourceRecordSets client params.

(** [if err != nil { log.Fatalf(format, err) }] after a call. *)
Definition orFatalf {A : Type} (r : result A) (format : string) : M A :=
  match r with
  | Ok a => ret a
  | Err err => Fatalf (format ++ err)
  end.

Definition main : M unit :=
  args <- Args ;;
  arg1 <- index args 1 ;;
  let domain := arg1 ++ "." in
  r <- GetIp ;;
  ip <- orFatalf r "Failed getting current ip: " ;;
  Printf ("Current ip address: " ++ ip ++ nl) ;;;
  r <- LoadDefaultConfig ;;
  cfg <- orFatalf r "Unable to load AWS config: " ;;
  let client := NewFromConfig cfg in
  r <- GetHostedZone client domain ;;
  zone <- orFatalf r "Failed to find zone: " ;;
  Printf ("Found zone: " ++ hz_Id zone ++ nl) ;;;
  r <- GetARecIp client (hz_Id zone) domain ;;
  configuredIp <- orFatalf r "Error trying to check configured ip: " ;;
  Printf ("Address in route53 is " ++ configuredIp ++ nl) ;;;
  if String.eqb ip configuredIp then
    Printf ("Address already up to date, done" ++ nl)
  else
    r <- UpdateIp client (hz_Id zone) domain ip ;;
    change <- orFatalf r "Error trying to update record: " ;;
    Printf ("Updated. Change: " ++ ci_Id (crs_ChangeInfo change) ++ nl).

(** The status the operating system sees: 0 when [main] returns, the
    argument of [os.Exit], and 2 when the Go run time dies of a panic. *)
Definition exit_status {A : Type} (o : outcome A) : Z :=
  match o with
  | Returned _ => 0%Z
  | Exited status => status
  | Panicked _ => 2%Z
  end.

(** The same outside world started with another argument vector. *)
Definition with_Args (w : World) (args : list string) : World :=
  mkWorld args (ipify_GetIp w) (config_LoadDefaultConfig w)
    (route53_ListHostedZonesByName w) (route53_ListResourceRecordSets w)
    (route53_ChangeResourceRecordSets w).

End Program.

Arguments mkRun {Cfg S A} trace provider outcome_of.
Arguments trace {Cfg S A} r.
Arguments provider {Cfg S A} r.
Arguments outcome_of {Cfg S A} r.

(** ** Vocabulary of the statements *)

(** [x] is the first element of [l] that satisfies [P]. *)
Definition first_match {A : Type} (P : A -> Prop) (l : list A) (x : A) : Prop :=
  exists before after,
    l = (before ++ x :: after)%list /\ Forall (fun y => ~ P y) before /\ P x.

(** The record sets [GetARecIp] is after: named like the domain, of type A. *)
Definition is_A_rec_of (domain : string) (rec : ResourceRecordSet) : Prop :=
  rrs_Name rec = domain /\ rrs_Type rec = RRTypeA.

Section Observations.
Context {Cfg S : Type}.

(** The write requests of a trace, in order. *)
Fixpoint writes (t : list (@event Cfg)) : list ChangeResourceRecordSetsInput :=
  match t with
  | [] => []
  | EvChangeResourceRecordSets params _ :: rest => params :: writes rest
  | _ :: rest => writes rest
  end.

(** Whether an event is a call to the outside world (a step of the run),
    as opposed to output of the program itself. *)
Definition is_call (e : @event Cfg) : bool :=
  match e with
  | EvPrintf _ | EvFatalf _ => false
  | _ => true
  end.

(** The calls a run made to the outside world, in order. *)
Definition calls (t : list (@event Cfg)) : list (@event Cfg) :=
  filter is_call t.

(** What the program printed on standard output, in order. *)
Fixpoint stdout (t : list (@event Cfg)) : list string :=
  match t with
  | [] => []
  | EvPrintf text :: rest => text :: stdout rest
  | _ :: rest => stdout rest
  end.

(** What the program wrote to the log, in order. *)
Fixpoint logged (t : list (@event Cfg)) : list string :=
  match t with
  | [] => []
  | EvFatalf text :: rest => text :: logged rest
  | _ :: rest => logged rest
  end.

End Observations.

(** ** A test double of the provider

    One hosted-zone listing, one list of record sets as the state, and an
    UPSERT that replaces the record set of the same name and type or adds
    it.  It serves to run the program on concrete inputs. *)
Module Fake.

Definition same_key (a b : ResourceRecordSet) : bool :=
  String.eqb (rrs_Name a) (rrs_Name b) && String.eqb (rrs_Type a) (rrs_Type b).

Fixpoint upsert (new : ResourceRecordSet) (recs : list ResourceRecordSet)
  : list ResourceRecordSet :=
  match recs with
  | [] => [new]
  | rec :: rest =>
      if same_key rec new then new :: rest else rec :: upsert new rest
  end.

Definition apply (recs : list ResourceRecordSet) (c : Change) : list ResourceRecordSet :=
  match ch_Action c with
  | ChangeActionUpsert => upsert (ch_ResourceRecordSet c) recs
  | ChangeActionCreate => (recs ++ [ch_ResourceRecordSet c])%list
  | ChangeActionDelete =>
      filter (fun rec => negb (same_key rec (ch_ResourceRecordSet c))) recs
  end.

Definition world (args : list string) (ip : result string) (cfg : result unit)
  (zones : result (list HostedZone)) (readable : bool)
  (write : result string) : @World unit (list ResourceRecordSet) :=
  {| os_Args := args;
     ipify_GetIp := ip;
     config_LoadDefaultConfig := cfg;
     route53_ListHostedZonesByName := fun _ _ _ =>
       match zones with
       | Ok l => Ok (mkListHostedZonesByNameOutput l)
       | Err e => Err e
       end;
     route53_ListResourceRecordSets := fun _ recs _ =>
       if readable then Ok (mkListResourceRecordSetsOutput recs)
       else Err "AccessDenied";
     route53_ChangeResourceRecordSets := fun _ recs params =>
       match write with
       | Ok id =>
           (fold_left apply (cb_Changes (crs_ChangeBatch params)) recs,
            Ok (mkChangeResourceRecordSetsOutput (mkChangeInfo id)))
       | Err e => (recs, Err e)
       end |}.

Definition zones : list HostedZone :=
  [ mkHostedZone "Z123" "example.com."; mkHostedZone "Z456" "sub.example.com." ].

Definition a_rec (name ip : string) : ResourceRecordSet :=
  mkResourceRecordSet name RRTypeA [mkResourceRecord ip] (Some 300%Z).

Definition records : list ResourceRecordSet :=
  [ mkResourceRecordSet "example.com." "NS" [mkResourceRecord "ns-1.awsdns-01.org."] (Some 172800%Z);
    mkResourceRecordSet "example.com." RRTypeA
      [mkResourceRecord "203.0.113.7"; mkResourceRecord "203.0.113.8"] (Some 300%Z);
    a_rec "www.example.com." "198.51.100.1";
    a_rec "example.com." "192.0.2.99" ].

Definition alias_records : list ResourceRecordSet :=
  [ mkResourceRecordSet "example.com." RRTypeA [] None;
    a_rec "example.com." "203.0.113.7" ].

Definition argv : list string := [ "route53Update"; "example.com" ].

Definition client : @Client unit := NewFromConfig tt.

(** The usual situation: everything answers, the echo service says [ip]. *)
Definition normal (ip : string) : @World unit (list ResourceRecordSet) :=
  world argv (Ok ip) (Ok tt) (Ok zones) true (Ok "/change/C0001").

(** The echo service cannot be reached. *)
Definition no_network : @World unit (list ResourceRecordSet) :=
  world argv (Err "dial tcp: i/o timeout") (Ok tt) (Ok zones) true (Ok "/change/C0001").

(** No credentials are configured. *)
Definition no_config : @World unit (list ResourceRecordSet) :=
  world argv (Ok "203.0.113.9") (Err "no credentials") (Ok zones) true (Ok "/change/C0001").

(** The provider lists only zones of other names, some of them longer
    names that begin or end like the domain. *)
Definition other_zones : list HostedZone :=
  [ mkHostedZone "Z456" "sub.example.com."; mkHostedZone "Z789" "example.com.au." ].

Definition no_zone : @World unit (list ResourceRecordSet) :=
  world argv (Ok "203.0.113.9") (Ok tt) (Ok other_zones) true (Ok "/change/C0001").

(** The provider refuses to list hosted zones. *)
Definition no_listing : @World unit (list ResourceRecordSet) :=
  world argv (Ok "203.0.113.9") (Ok tt) (Err "Throttling: Rate exceeded") true
    (Ok "/change/C0001").

(** The credentials may not list record sets. *)
Definition unreadable : @World unit (list ResourceRecordSet) :=
  world argv (Ok "203.0.113.9") (Ok tt) (Ok zones) false (Ok "/change/C0001").

(** The credentials may read but not change record sets. *)
Definition read_only : @World unit (list ResourceRecordSet) :=
  world argv (Ok "203.0.113.9") (Ok tt) (Ok zones) true (Err "AccessDenied").

(** Started without an argument. *)
Definition no_argument : @World unit (list ResourceRecordSet) :=
  world ["route53Update"] (Ok "203.0.113.9") (Ok tt) (Ok zones) true (Ok "/change/C0001").

(** The request [UpdateIp] sends for the domain [example.com.] in zone
    [Z123]. *)
Definition upsert_request (ip : string) : ChangeResourceRecordSetsInput :=
  mkChangeResourceRecordSetsInput
    (mkChangeBatch [mkChange ChangeActionUpsert (a_rec "example.com." ip)]) "Z123".

End Fake.

(** * Properties *)

Section Properties.
Context {Cfg S : Type}.
Implicit Types (w : @World Cfg S) (st : S) (client : @Client Cfg).
Implicit Types (domain zone ip arg : string).

(** ** The two scanning loops *)

Lemma GetHostedZone_range_found zones domain z :
  first_match (fun x => hz_Name x = domain) zones z ->
  GetHostedZone_range zones domain = Ok z.
Proof.
  intros (before & after & -> & Hbefore & Hz).
  induction Hbefore as [|y before Hy _ IH]; simpl.
  - apply String.eqb_eq in Hz. now rewrite Hz.
  - apply String.eqb_neq in Hy. now rewrite Hy.
Qed.

Lemma GetHostedZone_range_missing zones domain :
  Forall (fun x => hz_Name x <> domain) zones ->
  GetHostedZone_range zones domain = Err ("Can't match domain " ++ domain ++ " to zone").
Proof.
  induction 1 as [|y zones Hy _ IH]; simpl; [reflexivity|].
  apply String.eqb_neq in Hy. now rewrite Hy.
Qed.

(** Any list either has a first element with a decidable property or has
    none at all. *)
Lemma first_match_or_none {A : Type} (P : A -> Prop) (l : list A) :
  (forall x, {P x} + {~ P x}) ->
  (exists x, first_match P l x) \/ Forall (fun y => ~ P y) l.
Proof.
  intros dec. induction l as [|y l IH].
  - right. constructor.
  - destruct (dec y) as [Hy|Hy].
    + left. exists y, [], l. repeat split; [constructor | exact Hy].
    + destruct IH as [(x & before & after & -> & Hb & Hx)|Hnone].
      * left. exists x, (y :: before), after.
        repeat split; [constructor; assumption | exact Hx].
      * right. constructor; assumption.
Qed.

Lemma first_match_In {A : Type} (P : A -> Prop) (l : list A) (x : A) :
  first_match P l x -> In x l /\ P x.
Proof.
  intros (before & after & -> & _ & Hx). split; [|exact Hx].
  apply in_or_app. right. left. reflexivity.
Qed.

Lemma first_match_unique {A : Type} (P : A -> Prop) (l : list A) (x y : A) :
  first_match P l x -> first_match P l y -> x = y.
Proof.
  intros (b1 & a1 & -> & Hb1 & Hx) (b2 & a2 & E & Hb2 & Hy).
  revert b2 E Hb2. induction Hb1 as [|z b1 Hz _ IH]; intros b2 E Hb2.
  - destruct b2 as [|z b2]; simpl in E.
    + now inversion E.
    + inversion E; subst. inversion Hb2; subst. contradiction.
  - destruct b2 as [|z' b2]; simpl in E.
    + inversion E; subst. contradiction.
    + inversion E; subst. inversion Hb2; subst. eauto.
Qed.

Lemma is_A_rec_of_dec domain rec : {is_A_rec_of domain rec} + {~ is_A_rec_of domain rec}.
Proof.
  unfold is_A_rec_of.
  destruct (string_dec (rrs_Name rec) domain), (string_dec (rrs_Type rec) RRTypeA);
    [left; tauto | right; tauto ..].
Qed.

Lemma is_A_rec_of_eqb domain rec :
  is_A_rec_of domain rec <->
  String.eqb (rrs_Name rec) domain && String.eqb (rrs_Type rec) RRTypeA = true.
Proof.
  unfold is_A_rec_of.
  rewrite andb_true_iff, !String.eqb_eq. tauto.
Qed.

Lemma GetARecIp_range_found recs domain rec w st :
  first_match (is_A_rec_of domain) recs rec ->
  GetARecIp_range recs domain w st =
  mkRun [] st
    match rrs_ResourceRecords rec with
    | [] => Panicked (IndexOutOfRange 0 0)
    | first :: _ => Returned (Ok (rr_Value first))
    end.
Proof.
  intros (before & after & -> & Hbefore & Hrec).
  induction Hbefore as [|y before Hy _ IH]; simpl.
  - apply is_A_rec_of_eqb in Hrec. rewrite Hrec.
    unfold bind, index, ret. destruct (rrs_ResourceRecords rec); reflexivity.
  - rewrite is_A_rec_of_eqb in Hy. apply not_true_is_false in Hy. now rewrite Hy.
Qed.

Lemma GetARecIp_range_missing recs domain w st :
  Forall (fun rec => ~ is_A_rec_of domain rec) recs ->
  GetARecIp_range recs domain w st =
  mkRun [] st (Returned (Err "Could not find A rec for top level name")).
Proof.
  induction 1 as [|y recs Hy _ IH]; simpl; [reflexivity|].
  rewrite is_A_rec_of_eqb in Hy. apply not_true_is_false in Hy. now rewrite Hy.
Qed.

(** The loop touches neither the outside world nor the provider. *)
Lemma GetARecIp_range_silent recs domain w st :
  trace (GetARecIp_range recs domain w st) = [] /\
  provider (GetARecIp_range recs domain w st) = st.
Proof.
  destruct (first_match_or_none (is_A_rec_of domain) recs (is_A_rec_of_dec domain))
    as [(rec & Hrec)|Hnone].
  - rewrite (GetARecIp_range_found _ _ _ _ _ Hrec). split; reflexivity.
  - rewrite (GetARecIp_range_missing _ _ _ _ Hnone). split; reflexivity.
Qed.

(** ** What one call of each function does to the trace and the provider *)

Lemma GetHostedZone_run client domain w st :
  GetHostedZone client domain w st =
  let req := mkListHostedZonesByNameInput domain in
  let r := route53_ListHostedZonesByName w client st req in
  mkRun [EvListHostedZonesByName req r] st
    (Returned match r with
              | Err err => Err ("Failed to get hosted zones: " ++ err)
              | Ok res => GetHostedZone_range (lhz_HostedZones res) domain
              end).
Proof.
  unfold GetHostedZone, bind, ListHostedZonesByName, ret; simpl.
  destruct (route53_ListHostedZonesByName w client st _); reflexivity.
Qed.

Lemma GetARecIp_run client zone domain w st :
  GetARecIp client zone domain w st =
  let req := mkListResourceRecordSetsInput zone in
  let r := route53_ListResourceRecordSets w client st req in
  mkRun [EvListResourceRecordSets req r] st
    match r with
    | Err err => Returned (Err err)
    | Ok recs => outcome_of (GetARecIp_range (lrs_ResourceRecordSets recs) domain w st)
    end.
Proof.
  unfold GetARecIp, bind, ListResourceRecordSets, ret; simpl.
  destruct (route53_ListResourceRecordSets w client st _) as [recs|err]; [|reflexivity].
  destruct (GetARecIp_range_silent (lrs_ResourceRecordSets recs) domain w st) as [Ht Hp].
  destruct (GetARecIp_range _ domain w st) as [t p o]; simpl in Ht, Hp; subst.
  destruct o; reflexivity.
Qed.

Lemma UpdateIp_run client zone domain ip w st :
  UpdateIp client zone domain ip w st =
  let params :=
    mkChangeResourceRecordSetsInput
      (mkChangeBatch
         [mkChange ChangeActionUpsert
            (mkResourceRecordSet domain RRTypeA [mkResourceRecord ip] (Some 300%Z))])
      zone in
  let sr := route53_ChangeResourceRecordSets w client st params in
  mkRun [EvChangeResourceRecordSets params (snd sr)] (fst sr) (Returned (snd sr)).
Proof. reflexivity. Qed.

Ltac crunch :=
  cbv beta iota zeta delta [trace provider outcome_of app fst snd].

(** ** The whole run, case by case

    [main] unfolded along its control flow: which events a run leaves, in
    which state it leaves the provider and how it ends, according to what
    the outside world answers at each step. *)
Lemma main_run w st :
  main w st =
  match nth_error (os_Args w) 1 with
  | None => mkRun [] st (Panicked (IndexOutOfRange 1 (length (os_Args w))))
  | Some arg =>
  let domain := arg ++ "." in
  let t1 := [EvGetIp (ipify_GetIp w)] in
  match ipify_GetIp w with
  | Err err =>
      mkRun (t1 ++ [EvFatalf ("Failed getting current ip: " ++ err)])%list st (Exited 1)
  | Ok ip =>
  let t2 := (t1 ++ [EvPrintf ("Current ip address: " ++ ip ++ nl);
                    EvLoadDefaultConfig (config_LoadDefaultConfig w)])%list in
  match config_LoadDefaultConfig w with
  | Err err =>
      mkRun (t2 ++ [EvFatalf ("Unable to load AWS config: " ++ err)])%list st (Exited 1)
  | Ok cfg =>
  let client := NewFromConfig cfg in
  let zr := GetHostedZone client domain w st in
  let t3 := (t2 ++ trace zr)%list in
  match outcome_of zr with
  | Exited status => mkRun t3 st (Exited status)
  | Panicked p => mkRun t3 st (Panicked p)
  | Returned (Err err) =>
      mkRun (t3 ++ [EvFatalf ("Failed to find zone: " ++ err)])%list st (Exited 1)
  | Returned (Ok zone) =>
  let rr := GetARecIp client (hz_Id zone) domain w st in
  let t4 := (t3 ++ EvPrintf ("Found zone: " ++ hz_Id zone ++ nl) :: trace rr)%list in
  match outcome_of rr with
  | Exited status => mkRun t4 st (Exited status)
  | Panicked p => mkRun t4 st (Panicked p)
  | Returned (Err err) =>
      mkRun (t4 ++ [EvFatalf ("Error trying to check configured ip: " ++ err)])%list
        st (Exited 1)
  | Returned (Ok configuredIp) =>
  let t5 := (t4 ++ [EvPrintf ("Address in route53 is " ++ configuredIp ++ nl)])%list in
  if String.eqb ip configuredIp then
    mkRun (t5 ++ [EvPrintf ("Address already up to date, done" ++ nl)])%list
      st (Returned tt)
  else
  let ur := UpdateIp client (hz_Id zone) domain ip w st in
  let t6 := (t5 ++ trace ur)%list in
  match outcome_of ur with
  | Exited status => mkRun t6 (provider ur) (Exited status)
  | Panicked p => mkRun t6 (provider ur) (Panicked p)
  | Returned (Err err) =>
      mkRun (t6 ++ [EvFatalf ("Error trying to update record: " ++ err)])%list
        (provider ur) (Exited 1)
  | Returned (Ok change) =>
      mkRun (t6 ++ [EvPrintf ("Updated. Change: " ++ ci_Id (crs_ChangeInfo change) ++ nl)])%list
        (provider ur) (Returned tt)
  end end end end end end.
Proof.
  unfold main.
  cbv beta iota zeta delta
    [bind Args index GetIp LoadDefaultConfig orFatalf Printf Fatalf ret
     trace provider outcome_of app].
  destruct (nth_error (os_Args w) 1) as [arg|]; [|reflexivity].
  destruct (ipify_GetIp w) as [ip|err]; [|reflexivity].
  destruct (config_LoadDefaultConfig w) as [cfg|err]; [|reflexivity].
  rewrite GetHostedZone_run. crunch.
  match goal with
  | |- context [route53_ListHostedZonesByName w ?c st ?req] =>
      destruct (route53_ListHostedZonesByName w c st req) as [res|err]
  end; [|reflexivity].
  destruct (GetHostedZone_range (lhz_HostedZones res) (arg ++ ".")) as [zone|err];
    [|reflexivity].
  rewrite GetARecIp_run. crunch.
  match goal with
  | |- context [route53_ListResourceRecordSets w ?c st ?req] =>
      destruct (route53_ListResourceRecordSets w c st req) as [recs|err]
  end; [|reflexivity].
  destruct (GetARecIp_range (lrs_ResourceRecordSets recs) (arg ++ ".") w st)
    as [t p [[configuredIp|err]|status|pn]]; crunch; try reflexivity.
  destruct (String.eqb ip configuredIp); [reflexivity|].
  rewrite UpdateIp_run. crunch.
  match goal with
  | |- context [route53_ChangeResourceRecordSets w ?c st ?params] =>
      destruct (route53_ChangeResourceRecordSets w c st params) as [st' [change|err]]
  end; reflexivity.
Qed.

Lemma GetHostedZone_trace client domain w st :
  trace (GetHostedZone client domain w st) =
  [EvListHostedZonesByName (mkListHostedZonesByNameInput domain)
     (route53_ListHostedZonesByName w client st (mkListHostedZonesByNameInput domain))].
Proof. now rewrite GetHostedZone_run. Qed.

Lemma GetARecIp_trace client zone domain w st :
  trace (GetARecIp client zone domain w st) =
  [EvListResourceRecordSets (mkListResourceRecordSetsInput zone)
     (route53_ListResourceRecordSets w client st (mkListResourceRecordSetsInput zone))].
Proof. now rewrite GetARecIp_run. Qed.

Lemma UpdateIp_outcome client zone domain ip w st :
  outcome_of (UpdateIp client zone domain ip w st) =
  Returned (snd (route53_ChangeResourceRecordSets w client st
    (mkChangeResourceRecordSetsInput
      (mkChangeBatch
         [mkChange ChangeActionUpsert
            (mkResourceRecordSet domain RRTypeA [mkResourceRecord ip] (Some 300%Z))])
      zone))).
Proof. reflexivity. Qed.

Lemma writes_app (t u : list (@event Cfg)) :
  writes (t ++ u) = (writes t ++ writes u)%list.
Proof.
  induction t as [|e t IH]; [reflexivity|].
  destruct e; simpl; now rewrite IH.
Qed.

Lemma stdout_app (t u : list (@event Cfg)) :
  stdout (t ++ u) = (stdout t ++ stdout u)%list.
Proof.
  induction t as [|e t IH]; [reflexivity|].
  destruct e; simpl; now rewrite IH.
Qed.

Lemma logged_app (t u : list (@event Cfg)) :
  logged (t ++ u) = (logged t ++ logged u)%list.
Proof.
  induction t as [|e t IH]; [reflexivity|].
  destruct e; simpl; now rewrite IH.
Qed.

Lemma In_writes (t : list (@event Cfg)) params r :
  In (EvChangeResourceRecordSets params r) t -> In params (writes t).
Proof.
  induction t as [|e t IH]; simpl; [tauto|].
  intros [->|H]; [now left|].
  destruct e; simpl; auto.
Qed.

(** Brings a run of [main] into the shape of [main_run] under the facts
    known about the outside world, leaving every message as written. *)
Ltac unfold_run :=
  rewrite main_run;
  repeat match goal with
         | H : nth_error _ _ = _ |- _ => rewrite H
         | H : ipify_GetIp _ = _ |- _ => rewrite H
         | H : config_LoadDefaultConfig _ = _ |- _ => rewrite H
         | H : outcome_of (GetHostedZone _ _ _ _) = _ |- _ => rewrite H
         | H : outcome_of (GetARecIp _ _ _ _ _) = _ |- _ => rewrite H
         | H : String.eqb _ _ = _ |- _ => rewrite H
         | _ => progress cbv zeta
         | _ => progress cbn [trace provider outcome_of]
         end;
  rewrite ?GetHostedZone_trace, ?GetARecIp_trace, ?UpdateIp_outcome;
  rewrite ?UpdateIp_run;
  cbv zeta; cbn [trace provider outcome_of].

Ltac observe :=
  cbn [app writes stdout logged calls filter is_call exit_status last
       trace provider outcome_of fst snd].

(** ** The zone locator *)

(** C3: when the listing holds a zone named exactly like the domain,
    [GetHostedZone] returns a zone of the listing with that name, namely the
    first such; when no zone of the listing is named exactly like the
    domain, whatever else the listing holds, it fails with the "can't match"
    error naming the domain. *)
Theorem GetHostedZone_exact_match client domain w st res :
  route53_ListHostedZonesByName w client st (mkListHostedZonesByNameInput domain) = Ok res ->
  ((exists z, In z (lhz_HostedZones res) /\ hz_Name z = domain) ->
   exists found,
     outcome_of (GetHostedZone client domain w st) = Returned (Ok found) /\
     In found (lhz_HostedZones res) /\ hz_Name found = domain /\
     first_match (fun z => hz_Name z = domain) (lhz_HostedZones res) found) /\
  (Forall (fun z => hz_Name z <> domain) (lhz_HostedZones res) ->
   outcome_of (GetHostedZone client domain w st) =
   Returned (Err ("Can't match domain " ++ domain ++ " to zone"))).
Proof.
  intros Hlist. rewrite GetHostedZone_run. cbv zeta. rewrite Hlist.
  cbn [outcome_of]. split.
  - intros (z & Hin & Hz).
    destruct (first_match_or_none (fun x => hz_Name x = domain) (lhz_HostedZones res))
      as [(found & Hfound)|Hnone].
    + intro x. apply string_dec.
    + exists found. rewrite (GetHostedZone_range_found _ _ _ Hfound).
      destruct (first_match_In _ _ _ Hfound). auto.
    + rewrite Forall_forall in Hnone. destruct (Hnone z Hin Hz).
  - intros Hnone. now rewrite (GetHostedZone_range_missing _ _ Hnone).
Qed.

(** ** The record reader *)

(** C4: [GetARecIp] returns the first value of the first record set of the
    listing that is named exactly like the domain and has type A, whatever
    further values and later record sets there are; when no record set of
    the listing is both, it fails with the "could not find" error. *)
Theorem GetARecIp_first_value client zone domain w st res :
  route53_ListResourceRecordSets w client st (mkListResourceRecordSetsInput zone) = Ok res ->
  (forall rec first more,
     first_match (is_A_rec_of domain) (lrs_ResourceRecordSets res) rec ->
     rrs_ResourceRecords rec = first :: more ->
     outcome_of (GetARecIp client zone domain w st) = Returned (Ok (rr_Value first))) /\
  (Forall (fun rec => ~ is_A_rec_of domain rec) (lrs_ResourceRecordSets res) ->
   outcome_of (GetARecIp client zone domain w st) =
   Returned (Err "Could not find A rec for top level name")).
Proof.
  intros Hlist. rewrite GetARecIp_run. cbv zeta. rewrite Hlist.
  cbn [outcome_of]. split.
  - intros rec first more Hrec Hvalues.
    rewrite (GetARecIp_range_found _ _ _ _ _ Hrec), Hvalues. reflexivity.
  - intros Hnone. now rewrite (GetARecIp_range_missing _ _ _ _ Hnone).
Qed.

(** C8: element 0 of the first matching record set's values is read
    unchecked.  When that list is empty the call panics with an index out of
    range (index 0, length 0) and returns no error value; when it is not
    empty the call returns a value. *)
Theorem GetARecIp_empty_values_panic client zone domain w st res rec :
  route53_ListResourceRecordSets w client st (mkListResourceRecordSetsInput zone) = Ok res ->
  first_match (is_A_rec_of domain) (lrs_ResourceRecordSets res) rec ->
  (rrs_ResourceRecords rec = [] ->
   outcome_of (GetARecIp client zone domain w st) = Panicked (IndexOutOfRange 0 0)) /\
  (rrs_ResourceRecords rec <> [] ->
   exists v, outcome_of (GetARecIp client zone domain w st) = Returned (Ok v)).
Proof.
  intros Hlist Hrec. rewrite GetARecIp_run. cbv zeta. rewrite Hlist.
  cbn [outcome_of]. rewrite (GetARecIp_range_found _ _ _ _ _ Hrec).
  cbn [outcome_of]. split.
  - intros ->. reflexivity.
  - destruct (rrs_ResourceRecords rec) as [|first more]; [congruence|].
    intros _. now exists (rr_Value first).
Qed.

Lemma GetHostedZone_returns client domain w st :
  exists r, outcome_of (GetHostedZone client domain w st) = Returned r.
Proof. rewrite GetHostedZone_run. eexists. reflexivity. Qed.

Lemma GetARecIp_outcomes client zone domain w st :
  (exists r, outcome_of (GetARecIp client zone domain w st) = Returned r) \/
  outcome_of (GetARecIp client zone domain w st) = Panicked (IndexOutOfRange 0 0).
Proof.
  rewrite GetARecIp_run. crunch.
  destruct (route53_ListResourceRecordSets w client st _) as [recs|err];
    [|left; eexists; reflexivity].
  destruct (first_match_or_none (is_A_rec_of domain) (lrs_ResourceRecordSets recs)
              (is_A_rec_of_dec domain)) as [(rec & Hrec)|Hnone].
  - rewrite (GetARecIp_range_found _ _ _ _ _ Hrec).
    destruct (rrs_ResourceRecords rec); [right|left; eexists]; reflexivity.
  - rewrite (GetARecIp_range_missing _ _ _ _ Hnone). left. eexists. reflexivity.
Qed.

(** What [GetARecIp] returned was read off the first matching record set. *)
Lemma GetARecIp_returned_value client zone domain w st v :
  outcome_of (GetARecIp client zone domain w st) = Returned (Ok v) ->
  exists res rec more,
    route53_ListResourceRecordSets w client st (mkListResourceRecordSetsInput zone) = Ok res /\
    first_match (is_A_rec_of domain) (lrs_ResourceRecordSets res) rec /\
    rrs_ResourceRecords rec = mkResourceRecord v :: more.
Proof.
  rewrite GetARecIp_run. crunch.
  destruct (route53_ListResourceRecordSets w client st _) as [res|err]; [|discriminate].
  destruct (first_match_or_none (is_A_rec_of domain) (lrs_ResourceRecordSets res)
              (is_A_rec_of_dec domain)) as [(rec & Hrec)|Hnone].
  - rewrite (GetARecIp_range_found _ _ _ _ _ Hrec).
    destruct (rrs_ResourceRecords rec) as [|[first] more] eqn:Hvalues; [discriminate|].
    intros [= <-]. exists res, rec, more. auto.
  - rewrite (GetARecIp_range_missing _ _ _ _ Hnone). discriminate.
Qed.

(** ** The orchestrator *)

(** C9: [os.Args[1]] is read unchecked.  Started without an argument, the
    program panics with an index out of range on index 1 before it does
    anything else: nothing is called, printed or logged, so it does not end
    through [log.Fatalf].  With an argument present that panic cannot
    happen. *)
Theorem main_without_argument_panics w st :
  (length (os_Args w) <= 1 ->
   main w st = mkRun [] st (Panicked (IndexOutOfRange 1 (length (os_Args w)))) /\
   logged (trace (main w st)) = [] /\
   exit_status (outcome_of (main w st)) = 2%Z) /\
  (1 < length (os_Args w) ->
   forall n, outcome_of (main w st) <> Panicked (IndexOutOfRange 1 n)).
Proof.
  split.
  - intros Hlen. apply nth_error_None in Hlen.
    rewrite main_run, Hlen. repeat split.
  - intros Hlen n.
    destruct (nth_error (os_Args w) 1) as [arg|] eqn:Harg;
      [|apply nth_error_None in Harg; lia].
    rewrite main_run, Harg. cbv beta iota zeta.
    destruct (ipify_GetIp w) as [ip|err]; [|discriminate].
    destruct (config_LoadDefaultConfig w) as [cfg|err]; [|discriminate].
    destruct (GetHostedZone_returns (NewFromConfig cfg) (arg ++ ".") w st) as [[zn|err] ->];
      [|discriminate].
    destruct (GetARecIp_outcomes (NewFromConfig cfg) (hz_Id zn) (arg ++ ".") w st)
      as [[[cur|err] ->]| ->]; try discriminate.
    destruct (String.eqb ip cur); [discriminate|].
    rewrite UpdateIp_outcome.
    destruct (snd _); discriminate.
Qed.

(** C2: when the address the echo service reports equals the value
    [GetARecIp] read from the provider, the run sends no write request,
    leaves the provider in the state it found it, says that the address is
    already up to date and ends with status 0. *)
Theorem main_up_to_date_no_write w st arg ip cfg found :
  nth_error (os_Args w) 1 = Some arg ->
  ipify_GetIp w = Ok ip ->
  config_LoadDefaultConfig w = Ok cfg ->
  outcome_of (GetHostedZone (NewFromConfig cfg) (arg ++ ".") w st) = Returned (Ok found) ->
  outcome_of (GetARecIp (NewFromConfig cfg) (hz_Id found) (arg ++ ".") w st) =
    Returned (Ok ip) ->
  writes (trace (main w st)) = [] /\
  provider (main w st) = st /\
  exit_status (outcome_of (main w st)) = 0%Z /\
  last (stdout (trace (main w st))) EmptyString = "Address already up to date, done" ++ nl.
Proof.
  intros Harg Hip Hcfg Hzone Hrec.
  pose proof (String.eqb_refl ip) as Heq.
  unfold_run. observe. repeat split.
Qed.

(** C1, as the program has it: when the address the echo service reports
    differs from the value [GetARecIp] read, the run sends exactly one write
    request, an UPSERT of one A record set named like the trailing-dot
    domain, holding the reported address as its only value, with TTL 300.
    If the provider accepts it, the run prints the change id and ends with
    status 0; if the provider rejects it, the run logs the error and ends
    with status 1. *)
Theorem main_updates_on_mismatch w st arg ip cfg found cur :
  nth_error (os_Args w) 1 = Some arg ->
  ipify_GetIp w = Ok ip ->
  config_LoadDefaultConfig w = Ok cfg ->
  outcome_of (GetHostedZone (NewFromConfig cfg) (arg ++ ".") w st) = Returned (Ok found) ->
  outcome_of (GetARecIp (NewFromConfig cfg) (hz_Id found) (arg ++ ".") w st) =
    Returned (Ok cur) ->
  ip <> cur ->
  let params :=
    mkChangeResourceRecordSetsInput
      (mkChangeBatch
         [mkChange ChangeActionUpsert
            (mkResourceRecordSet (arg ++ ".") RRTypeA [mkResourceRecord ip] (Some 300%Z))])
      (hz_Id found) in
  let answer := route53_ChangeResourceRecordSets w (NewFromConfig cfg) st params in
  writes (trace (main w st)) = [params] /\
  provider (main w st) = fst answer /\
  (forall change, snd answer = Ok change ->
     exit_status (outcome_of (main w st)) = 0%Z /\
     last (stdout (trace (main w st))) EmptyString =
       "Updated. Change: " ++ ci_Id (crs_ChangeInfo change) ++ nl) /\
  (forall err, snd answer = Err err ->
     exit_status (outcome_of (main w st)) = 1%Z /\
     logged (trace (main w st)) = ["Error trying to update record: " ++ err]).
Proof.
  intros Harg Hip Hcfg Hzone Hrec Hneq params answer.
  apply String.eqb_neq in Hneq.
  unfold_run. fold params. fold answer.
  destruct (snd answer) as [change|err]; observe;
    (split; [reflexivity|]); (split; [reflexivity|]);
    split; intros ? [= <-]; split; reflexivity.
Qed.

(** C5: a step that fails is the last call of the run.  After a failed
    address resolution only that call was made; after a failed
    configuration load, two; after a failed zone lookup, three; after a
    failed record read, four, and in none of these runs was a write request
    sent.  After a rejected write the five calls are all there is, and the
    line reporting the change is not printed.  Every such run ends at
    [log.Fatalf]. *)
Theorem main_halts_at_first_failure w st arg :
  nth_error (os_Args w) 1 = Some arg ->
  let domain := arg ++ "." in
  let zones_req := mkListHostedZonesByNameInput domain in
  (forall err,
     ipify_GetIp w = Err err ->
     calls (trace (main w st)) = [EvGetIp (Err err)] /\
     writes (trace (main w st)) = [] /\
     outcome_of (main w st) = Exited 1) /\
  (forall ip err,
     ipify_GetIp w = Ok ip ->
     config_LoadDefaultConfig w = Err err ->
     calls (trace (main w st)) = [EvGetIp (Ok ip); EvLoadDefaultConfig (Err err)] /\
     writes (trace (main w st)) = [] /\
     outcome_of (main w st) = Exited 1) /\
  (forall ip cfg err,
     ipify_GetIp w = Ok ip ->
     config_LoadDefaultConfig w = Ok cfg ->
     let client := NewFromConfig cfg in
     outcome_of (GetHostedZone client domain w st) = Returned (Err err) ->
     calls (trace (main w st)) =
       [EvGetIp (Ok ip); EvLoadDefaultConfig (Ok cfg);
        EvListHostedZonesByName zones_req
          (route53_ListHostedZonesByName w client st zones_req)] /\
     writes (trace (main w st)) = [] /\
     outcome_of (main w st) = Exited 1) /\
  (forall ip cfg found err,
     ipify_GetIp w = Ok ip ->
     config_LoadDefaultConfig w = Ok cfg ->
     let client := NewFromConfig cfg in
     let recs_req := mkListResourceRecordSetsInput (hz_Id found) in
     outcome_of (GetHostedZone client domain w st) = Returned (Ok found) ->
     outcome_of (GetARecIp client (hz_Id found) domain w st) = Returned (Err err) ->
     calls (trace (main w st)) =
       [EvGetIp (Ok ip); EvLoadDefaultConfig (Ok cfg);
        EvListHostedZonesByName zones_req
          (route53_ListHostedZonesByName w client st zones_req);
        EvListResourceRecordSets recs_req
          (route53_ListResourceRecordSets w client st recs_req)] /\
     writes (trace (main w st)) = [] /\
     outcome_of (main w st) = Exited 1) /\
  (forall ip cfg found cur params err,
     ipify_GetIp w = Ok ip ->
     config_LoadDefaultConfig w = Ok cfg ->
     let client := NewFromConfig cfg in
     let recs_req := mkListResourceRecordSetsInput (hz_Id found) in
     outcome_of (GetHostedZone client domain w st) = Returned (Ok found) ->
     outcome_of (GetARecIp client (hz_Id found) domain w st) = Returned (Ok cur) ->
     ip <> cur ->
     writes (trace (UpdateIp client (hz_Id found) domain ip w st)) = [params] ->
     snd (route53_ChangeResourceRecordSets w client st params) = Err err ->
     calls (trace (main w st)) =
       [EvGetIp (Ok ip); EvLoadDefaultConfig (Ok cfg);
        EvListHostedZonesByName zones_req
          (route53_ListHostedZonesByName w client st zones_req);
        EvListResourceRecordSets recs_req
          (route53_ListResourceRecordSets w client st recs_req);
        EvChangeResourceRecordSets params (Err err)] /\
     stdout (trace (main w st)) =
       ["Current ip address: " ++ ip ++ nl;
        "Found zone: " ++ hz_Id found ++ nl;
        "Address in route53 is " ++ cur ++ nl] /\
     outcome_of (main w st) = Exited 1).
Proof.
  intros Harg domain zones_req. subst domain zones_req.
  repeat apply conj.
  - intros err Hip. unfold_run. observe. repeat split.
  - intros ip err Hip Hcfg. unfold_run. observe. repeat split.
  - intros ip cfg err Hip Hcfg client Hzone. subst client.
    unfold_run. observe. repeat split.
  - intros ip cfg found err Hip Hcfg client recs_req Hzone Hrec.
    subst client recs_req. unfold_run. observe. repeat split.
  - intros ip cfg found cur params err Hip Hcfg client recs_req Hzone Hrec Hneq Hparams Herr.
    subst client recs_req. apply String.eqb_neq in Hneq.
    rewrite UpdateIp_run in Hparams. cbv zeta in Hparams.
    cbn [trace writes] in Hparams. injection Hparams as <-.
    unfold_run. rewrite Herr. observe. repeat split.
Qed.

(** C6: the exit status is 0 on the two successful paths (nothing to do,
    record updated) and 1 on each failure of a step, and a failing run logs
    exactly one message: the name of the step that failed followed by the
    error the step returned.  All five failures end the same way, through
    [log.Fatalf]. *)
Theorem main_exit_status w st arg :
  nth_error (os_Args w) 1 = Some arg ->
  let domain := arg ++ "." in
  (forall err,
     ipify_GetIp w = Err err ->
     exit_status (outcome_of (main w st)) = 1%Z /\
     logged (trace (main w st)) = ["Failed getting current ip: " ++ err]) /\
  (forall ip err,
     ipify_GetIp w = Ok ip ->
     config_LoadDefaultConfig w = Err err ->
     exit_status (outcome_of (main w st)) = 1%Z /\
     logged (trace (main w st)) = ["Unable to load AWS config: " ++ err]) /\
  (forall ip cfg,
     ipify_GetIp w = Ok ip ->
     config_LoadDefaultConfig w = Ok cfg ->
     let client := NewFromConfig cfg in
     (forall err,
        outcome_of (GetHostedZone client domain w st) = Returned (Err err) ->
        exit_status (outcome_of (main w st)) = 1%Z /\
        logged (trace (main w st)) = ["Failed to find zone: " ++ err]) /\
     (forall found,
        outcome_of (GetHostedZone client domain w st) = Returned (Ok found) ->
        (forall err,
           outcome_of (GetARecIp client (hz_Id found) domain w st) = Returned (Err err) ->
           exit_status (outcome_of (main w st)) = 1%Z /\
           logged (trace (main w st)) = ["Error trying to check configured ip: " ++ err]) /\
        (outcome_of (GetARecIp client (hz_Id found) domain w st) = Returned (Ok ip) ->
         exit_status (outcome_of (main w st)) = 0%Z /\
         logged (trace (main w st)) = []) /\
        (forall cur,
           outcome_of (GetARecIp client (hz_Id found) domain w st) = Returned (Ok cur) ->
           ip <> cur ->
           (forall err,
              outcome_of (UpdateIp client (hz_Id found) domain ip w st) = Returned (Err err) ->
              exit_status (outcome_of (main w st)) = 1%Z /\
              logged (trace (main w st)) = ["Error trying to update record: " ++ err]) /\
           (forall change,
              outcome_of (UpdateIp client (hz_Id found) domain ip w st) =
                Returned (Ok change) ->
              exit_status (outcome_of (main w st)) = 0%Z /\
              logged (trace (main w st)) = [])))).
Proof.
  intros Harg domain. subst domain.
  split; [|split].
  - intros err Hip. unfold_run. observe. split; reflexivity.
  - intros ip err Hip Hcfg. unfold_run. observe. split; reflexivity.
  - intros ip cfg Hip Hcfg client. subst client. split.
    + intros err Hzone. unfold_run. observe. split; reflexivity.
    + intros found Hzone. split; [|split].
      * intros err Hrec. unfold_run. observe. split; reflexivity.
      * intros Hrec. pose proof (String.eqb_refl ip) as Heq.
        unfold_run. observe. split; reflexivity.
      * intros cur Hrec Hneq. apply String.eqb_neq in Hneq.
        split; intros x Hx; rewrite UpdateIp_outcome in Hx; injection Hx as Hx;
          unfold_run; rewrite Hx; observe; split; reflexivity.
Qed.

Lemma string_length_append (s t : string) :
  String.length (s ++ t) = String.length s + String.length t.
Proof. induction s as [|c s IH]; simpl; [reflexivity|now rewrite IH]. Qed.

Lemma string_append_assoc (s t u : string) :
  (s ++ t) ++ u = s ++ (t ++ u).
Proof. induction s as [|c s IH]; simpl; [reflexivity|now rewrite IH]. Qed.

Lemma string_append_cancel_r (s s' t : string) :
  s ++ t = s' ++ t -> s = s'.
Proof.
  revert s'. induction s as [|c s IH]; intros [|c' s'] H; simpl in H.
  - reflexivity.
  - apply (f_equal String.length) in H. simpl in H.
    rewrite string_length_append in H. lia.
  - apply (f_equal String.length) in H. simpl in H.
    rewrite string_length_append in H. lia.
  - injection H as -> H. f_equal. now apply IH.
Qed.

(** Splits a run of [main] that has its argument into the nine ways it
    can go, with the trace of each written out. *)
Ltac run_cases w st arg Harg :=
  rewrite main_run, Harg; cbv beta iota zeta;
  let ip := fresh "ip" in
  let cfg := fresh "cfg" in
  let found := fresh "found" in
  let cur := fresh "cur" in
  let err := fresh "err" in
  let Hip := fresh "Hip" in
  let Hcfg := fresh "Hcfg" in
  let Hzone := fresh "Hzone" in
  let Hrec := fresh "Hrec" in
  let Heq := fresh "Heq" in
  destruct (ipify_GetIp w) as [ip|err] eqn:Hip;
  [ destruct (config_LoadDefaultConfig w) as [cfg|err] eqn:Hcfg;
    [ destruct (GetHostedZone_returns (NewFromConfig cfg) (arg ++ ".") w st)
        as [[found|err] Hzone];
      rewrite Hzone, ?GetHostedZone_trace;
      [ destruct (GetARecIp_outcomes (NewFromConfig cfg) (hz_Id found) (arg ++ ".") w st)
          as [[[cur|err] Hrec]|Hrec];
        rewrite Hrec, ?GetARecIp_trace;
        [ destruct (String.eqb ip cur) eqn:Heq;
          [ | rewrite UpdateIp_run; crunch;
              destruct (route53_ChangeResourceRecordSets w _ st _) as [? [?|?]] ]
        | | ]
      | ]
    | ]
  | ];
  crunch.

(** The write requests of a run: none, or the single UPSERT that
    [UpdateIp] builds from the argument, the reported address and the zone
    that was found. *)
Lemma main_writes w st :
  writes (trace (main w st)) = [] \/
  exists arg ip found,
    nth_error (os_Args w) 1 = Some arg /\
    ipify_GetIp w = Ok ip /\
    writes (trace (main w st)) =
      [mkChangeResourceRecordSetsInput
         (mkChangeBatch
            [mkChange ChangeActionUpsert
               (mkResourceRecordSet (arg ++ ".") RRTypeA [mkResourceRecord ip] (Some 300%Z))])
         (hz_Id found)].
Proof.
  destruct (nth_error (os_Args w) 1) as [arg|] eqn:Harg;
    [|left; now rewrite main_run, Harg].
  run_cases w st arg Harg;
    try (left; reflexivity);
    right; exists arg; eexists; eexists; (split; [reflexivity|]); split; reflexivity.
Qed.

(** C7: the domain of a run is the first argument followed by one period,
    and it is the same in all three steps: every zone listing is asked for
    it, the value reported as the address in route53 is the first value of
    the first A record set of the listing that bears it, and every record
    set sent in a write request bears it. *)
Theorem main_uses_one_domain w st arg :
  nth_error (os_Args w) 1 = Some arg ->
  let domain := arg ++ "." in
  (forall req r,
     In (EvListHostedZonesByName req r) (trace (main w st)) ->
     lhz_DNSName req = domain) /\
  (forall req res v,
     In (EvListResourceRecordSets req (Ok res)) (trace (main w st)) ->
     In ("Address in route53 is " ++ v ++ nl) (stdout (trace (main w st))) ->
     exists rec more,
       first_match (is_A_rec_of domain) (lrs_ResourceRecordSets res) rec /\
       rrs_ResourceRecords rec = mkResourceRecord v :: more) /\
  (forall params r,
     In (EvChangeResourceRecordSets params r) (trace (main w st)) ->
     forall c, In c (cb_Changes (crs_ChangeBatch params)) ->
       rrs_Name (ch_ResourceRecordSet c) = domain).
Proof.
  intros Harg domain. subst domain. split; [|split].
  - intros req r. run_cases w st arg Harg; cbn [In];
      intros H; repeat (destruct H as [H|H]; try discriminate H); try contradiction;
      now injection H as <- _.
  - intros req res v.
    assert (Hread : forall cfg zone cur,
      outcome_of (GetARecIp (NewFromConfig cfg) zone (arg ++ ".") w st) = Returned (Ok cur) ->
      route53_ListResourceRecordSets w (NewFromConfig cfg) st
        (mkListResourceRecordSetsInput zone) = Ok res ->
      "Address in route53 is " ++ cur ++ nl = "Address in route53 is " ++ v ++ nl ->
      exists rec more,
        first_match (is_A_rec_of (arg ++ ".")) (lrs_ResourceRecordSets res) rec /\
        rrs_ResourceRecords rec = mkResourceRecord v :: more).
    { intros cfg zone cur Hcur Hres Htext.
      apply GetARecIp_returned_value in Hcur.
      destruct Hcur as (res' & rec & more & Hres' & Hfirst & Hvalues).
      rewrite Hres in Hres'. injection Hres' as <-.
      simpl in Htext. injection Htext as Htext.
      apply string_append_cancel_r in Htext. subst cur. eauto. }
    run_cases w st arg Harg; observe; cbn [In];
      intros H Hout;
      repeat (destruct H as [H|H]; try discriminate H); try contradiction;
      repeat (destruct Hout as [Hout|Hout]; try (simpl in Hout; discriminate Hout));
      try contradiction;
      injection H as _ H; eapply Hread; eauto.
  - intros params r Hin c Hc. apply In_writes in Hin.
    destruct (main_writes w st) as [Hnone|(arg' & ip & found & Harg' & _ & Hone)].
    + rewrite Hnone in Hin. destruct Hin.
    + rewrite Harg in Harg'. injection Harg' as <-.
      rewrite Hone in Hin. destruct Hin as [<-|[]].
      destruct Hc as [<-|[]]. reflexivity.
Qed.

(** C10: every write request the program sends holds exactly one change,
    and its action is UPSERT, never CREATE or DELETE; this holds for
    [UpdateIp] on any arguments and for every run of [main]. *)
Theorem main_only_upserts w st :
  (forall client zone domain ip params r,
     In (EvChangeResourceRecordSets params r) (trace (UpdateIp client zone domain ip w st)) ->
     exists c, cb_Changes (crs_ChangeBatch params) = [c] /\ ch_Action c = ChangeActionUpsert) /\
  (forall params r,
     In (EvChangeResourceRecordSets params r) (trace (main w st)) ->
     exists c,
       cb_Changes (crs_ChangeBatch params) = [c] /\
       ch_Action c = ChangeActionUpsert /\
       ch_Action c <> ChangeActionDelete /\
       ch_Action c <> ChangeActionCreate).
Proof.
  split.
  - intros client zone domain ip params r Hin.
    rewrite UpdateIp_run in Hin. crunch. destruct Hin as [[= <- _]|[]].
    eexists. split; reflexivity.
  - intros params r Hin. apply In_writes in Hin.
    destruct (main_writes w st) as [Hnone|(arg & ip & found & _ & _ & Hone)].
    + rewrite Hnone in Hin. destruct Hin.
    + rewrite Hone in Hin. destruct Hin as [<-|[]].
      eexists. repeat split; cbn; discriminate.
Qed.

(** ** Further properties of the lookups *)


(** X2: [GetARecIp] returns a value exactly when the listing call succeeded
    and that value is element 0 of the values of the first record set of
    the listing that is named like the domain and has type A. *)
Theorem GetARecIp_returns_value_iff client zone domain w st v :
  outcome_of (GetARecIp client zone domain w st) = Returned (Ok v) <->
  exists res rec more,
    route53_ListResourceRecordSets w client st (mkListResourceRecordSetsInput zone) = Ok res /\
    first_match (is_A_rec_of domain) (lrs_ResourceRecordSets res) rec /\
    rrs_ResourceRecords rec = mkResourceRecord v :: more.
Proof.
  split; [apply GetARecIp_returned_value|].
  intros (res & rec & more & Hres & Hfirst & Hvalues).
  rewrite GetARecIp_run. crunch. rewrite Hres.
  rewrite (GetARecIp_range_found _ _ _ _ _ Hfirst), Hvalues. reflexivity.
Qed.


(** X4: how the errors of the zone lookup reach the log.  A failed listing
    call is wrapped twice, by [GetHostedZone] and by [main]; a listing
    without a zone of that name is reported with the trailing-dot domain. *)
Theorem zone_lookup_errors_logged w st arg ip cfg :
  nth_error (os_Args w) 1 = Some arg ->
  ipify_GetIp w = Ok ip ->
  config_LoadDefaultConfig w = Ok cfg ->
  let req := mkListHostedZonesByNameInput (arg ++ ".") in
  (forall err,
     route53_ListHostedZonesByName w (NewFromConfig cfg) st req = Err err ->
     logged (trace (main w st)) =
       ["Failed to find zone: Failed to get hosted zones: " ++ err]) /\
  (forall res,
     route53_ListHostedZonesByName w (NewFromConfig cfg) st req = Ok res ->
     Forall (fun z => hz_Name z <> arg ++ ".") (lhz_HostedZones res) ->
     logged (trace (main w st)) =
       ["Failed to find zone: Can't match domain " ++ arg ++ ". to zone"]).
Proof.
  intros Harg Hip Hcfg req. subst req. split.
  - intros err Hlist.
    assert (Hzone : outcome_of (GetHostedZone (NewFromConfig cfg) (arg ++ ".") w st) =
                    Returned (Err ("Failed to get hosted zones: " ++ err))).
    { rewrite GetHostedZone_run. crunch. now rewrite Hlist. }
    unfold_run. observe. reflexivity.
  - intros res Hlist Hnone.
    assert (Hzone : outcome_of (GetHostedZone (NewFromConfig cfg) (arg ++ ".") w st) =
                    Returned (Err ("Can't match domain " ++ (arg ++ ".") ++ " to zone"))).
    { rewrite GetHostedZone_run. crunch. rewrite Hlist.
      now rewrite (GetHostedZone_range_missing _ _ Hnone). }
    unfold_run. observe. rewrite string_append_assoc. reflexivity.
Qed.

(** X5: a failed record listing is passed on by [GetARecIp] as it is, and
    [main] logs it behind the name of the step. *)
Theorem record_listing_error_logged w st arg ip cfg found err :
  nth_error (os_Args w) 1 = Some arg ->
  ipify_GetIp w = Ok ip ->
  config_LoadDefaultConfig w = Ok cfg ->
  outcome_of (GetHostedZone (NewFromConfig cfg) (arg ++ ".") w st) = Returned (Ok found) ->
  route53_ListResourceRecordSets w (NewFromConfig cfg) st
    (mkListResourceRecordSetsInput (hz_Id found)) = Err err ->
  outcome_of (GetARecIp (NewFromConfig cfg) (hz_Id found) (arg ++ ".") w st) =
    Returned (Err err) /\
  logged (trace (main w st)) = ["Error trying to check configured ip: " ++ err] /\
  exit_status (outcome_of (main w st)) = 1%Z.
Proof.
  intros Harg Hip Hcfg Hzone Hlist.
  assert (Hrec : outcome_of (GetARecIp (NewFromConfig cfg) (hz_Id found) (arg ++ ".") w st) =
                 Returned (Err err)).
  { rewrite GetARecIp_run. crunch. now rewrite Hlist. }
  split; [exact Hrec|]. unfold_run. observe. split; reflexivity.
Qed.

(** X6: a record set without values at the apex stops the whole program.
    When [GetARecIp] panics, [main] dies of the same panic with status 2,
    after printing the address and the zone; it logs nothing, sends no
    write request and leaves the provider as it was. *)
Theorem main_dies_of_record_panic w st arg ip cfg found p :
  nth_error (os_Args w) 1 = Some arg ->
  ipify_GetIp w = Ok ip ->
  config_LoadDefaultConfig w = Ok cfg ->
  outcome_of (GetHostedZone (NewFromConfig cfg) (arg ++ ".") w st) = Returned (Ok found) ->
  outcome_of (GetARecIp (NewFromConfig cfg) (hz_Id found) (arg ++ ".") w st) = Panicked p ->
  outcome_of (main w st) = Panicked p /\
  exit_status (outcome_of (main w st)) = 2%Z /\
  stdout (trace (main w st)) =
    ["Current ip address: " ++ ip ++ nl; "Found zone: " ++ hz_Id found ++ nl] /\
  logged (trace (main w st)) = [] /\
  writes (trace (main w st)) = [] /\
  provider (main w st) = st.
Proof.
  intros Harg Hip Hcfg Hzone Hrec. unfold_run. observe. repeat split.
Qed.

(** ** Further properties of the whole run *)

(** Splits any run of [main], with or without its argument. *)
Ltac all_runs w st :=
  let arg := fresh "arg" in
  let Harg := fresh "Harg" in
  destruct (nth_error (os_Args w) 1) as [arg|] eqn:Harg;
  [ run_cases w st arg Harg | rewrite main_run, Harg ];
  observe.

(** Closes a goal that assumes an event in a trace that holds none like it. *)
Ltac no_such_event :=
  observe; cbn [In];
  let H := fresh "H" in
  intros H; repeat (destruct H as [H|H]; try discriminate H); contradiction.


(** X8: no run, whatever the outside world answers, sends more than one
    write request or makes more than five calls. *)
Theorem main_call_budget w st :
  length (writes (trace (main w st))) <= 1 /\
  length (calls (trace (main w st))) <= 5.
Proof.
  all_runs w st; cbn [length]; lia.
Qed.

(** X9: a write request is sent only when every earlier step succeeded and
    the addresses differ.  It then goes to the zone that was found and
    whose record sets were listed, and it carries one UPSERT of an A record
    set named like the domain, with TTL 300 and the address the echo
    service reported as its only value. *)
Theorem main_write_only_if w st params r :
  In (EvChangeResourceRecordSets params r) (trace (main w st)) ->
  exists arg ip cfg found cur,
    nth_error (os_Args w) 1 = Some arg /\
    ipify_GetIp w = Ok ip /\
    config_LoadDefaultConfig w = Ok cfg /\
    outcome_of (GetHostedZone (NewFromConfig cfg) (arg ++ ".") w st) = Returned (Ok found) /\
    outcome_of (GetARecIp (NewFromConfig cfg) (hz_Id found) (arg ++ ".") w st) =
      Returned (Ok cur) /\
    ip <> cur /\
    params =
      mkChangeResourceRecordSetsInput
        (mkChangeBatch
           [mkChange ChangeActionUpsert
              (mkResourceRecordSet (arg ++ ".") RRTypeA [mkResourceRecord ip] (Some 300%Z))])
        (hz_Id found) /\
    r = snd (route53_ChangeResourceRecordSets w (NewFromConfig cfg) st params).
Proof.
  destruct (nth_error (os_Args w) 1) as [arg|] eqn:Harg;
    [|rewrite main_run, Harg; intros []].
  intros Hin.
  destruct (ipify_GetIp w) as [ip|err] eqn:Hip;
    [|revert Hin; unfold_run; no_such_event].
  destruct (config_LoadDefaultConfig w) as [cfg|err] eqn:Hcfg;
    [|revert Hin; unfold_run; no_such_event].
  destruct (GetHostedZone_returns (NewFromConfig cfg) (arg ++ ".") w st)
    as [[found|err] Hzone];
    [|revert Hin; unfold_run; no_such_event].
  destruct (GetARecIp_outcomes (NewFromConfig cfg) (hz_Id found) (arg ++ ".") w st)
    as [[[cur|err] Hrec]|Hrec];
    [|revert Hin; unfold_run; no_such_event ..].
  destruct (String.eqb ip cur) eqn:Heq;
    [revert Hin; unfold_run; no_such_event|].
  exists arg, ip, cfg, found, cur.
  pose proof (proj1 (String.eqb_neq _ _) Heq) as Hneq.
  repeat (split; [first [assumption|reflexivity]|]).
  revert Hin. unfold_run.
  destruct (snd _) as [change|err] eqn:Hanswer; observe; cbn [In];
    intros H; repeat (destruct H as [H|H]; try discriminate H); try contradiction;
    injection H as <- <-; (split; [reflexivity|]); now rewrite Hanswer.
Qed.


(** X11: status 0 means the record is in order as far as the program can
    tell: every step succeeded, and either the value read already was the
    reported address and nothing was written, or the one UPSERT of the
    reported address was accepted by the provider. *)
Theorem main_success_only_if w st :
  exit_status (outcome_of (main w st)) = 0%Z ->
  exists arg ip cfg found cur,
    nth_error (os_Args w) 1 = Some arg /\
    ipify_GetIp w = Ok ip /\
    config_LoadDefaultConfig w = Ok cfg /\
    outcome_of (GetHostedZone (NewFromConfig cfg) (arg ++ ".") w st) = Returned (Ok found) /\
    outcome_of (GetARecIp (NewFromConfig cfg) (hz_Id found) (arg ++ ".") w st) =
      Returned (Ok cur) /\
    ((ip = cur /\ writes (trace (main w st)) = [] /\ provider (main w st) = st) \/
     (ip <> cur /\
      exists change,
        outcome_of (UpdateIp (NewFromConfig cfg) (hz_Id found) (arg ++ ".") ip w st) =
          Returned (Ok change) /\
        length (writes (trace (main w st))) = 1)).
Proof.
  destruct (nth_error (os_Args w) 1) as [arg|] eqn:Harg;
    [|rewrite main_run, Harg; discriminate].
  intros Hstatus.
  destruct (ipify_GetIp w) as [ip|err] eqn:Hip;
    [|revert Hstatus; unfold_run; discriminate].
  destruct (config_LoadDefaultConfig w) as [cfg|err] eqn:Hcfg;
    [|revert Hstatus; unfold_run; discriminate].
  destruct (GetHostedZone_returns (NewFromConfig cfg) (arg ++ ".") w st)
    as [[found|err] Hzone];
    [|revert Hstatus; unfold_run; discriminate].
  destruct (GetARecIp_outcomes (NewFromConfig cfg) (hz_Id found) (arg ++ ".") w st)
    as [[[cur|err] Hrec]|Hrec];
    [|revert Hstatus; unfold_run; discriminate ..].
  exists arg, ip, cfg, found, cur.
  repeat (split; [first [assumption|reflexivity]|]).
  destruct (String.eqb ip cur) eqn:Heq.
  - left. split; [now apply String.eqb_eq|].
    unfold_run. observe. split; reflexivity.
  - right. split; [now apply String.eqb_neq|].
    revert Hstatus. unfold_run.
    destruct (snd _) as [change|err] eqn:Hanswer; observe; [|discriminate].
    intros _. exists change. split; reflexivity.
Qed.

Lemma GetARecIp_range_any_world recs domain w w' st :
  GetARecIp_range recs domain w st = GetARecIp_range recs domain w' st.
Proof.
  destruct (first_match_or_none (is_A_rec_of domain) recs (is_A_rec_of_dec domain))
    as [(rec & Hrec)|Hnone].
  - now rewrite !(GetARecIp_range_found _ _ _ _ _ Hrec).
  - now rewrite !(GetARecIp_range_missing _ _ _ _ Hnone).
Qed.

(** X12: of the argument vector only element 1 matters: two invocations
    that agree on it, in the same outside world, run alike, whatever the
    program is called and whatever further arguments follow. *)
Theorem main_reads_only_first_argument w st args args' arg :
  nth_error args 1 = Some arg ->
  nth_error args' 1 = Some arg ->
  main (with_Args w args) st = main (with_Args w args') st.
Proof.
  intros Hargs Hargs'.
  rewrite !main_run. cbn [os_Args with_Args]. rewrite Hargs, Hargs'.
  cbv zeta. cbn [ipify_GetIp config_LoadDefaultConfig with_Args].
  destruct (ipify_GetIp w) as [ip|err]; [|reflexivity].
  destruct (config_LoadDefaultConfig w) as [cfg|err]; [|reflexivity].
  rewrite !GetHostedZone_run. crunch.
  cbn [route53_ListHostedZonesByName with_Args].
  destruct (match route53_ListHostedZonesByName w _ st _ with Ok _ => _ | Err _ => _ end)
    as [found|err]; [|reflexivity].
  rewrite !GetARecIp_run. crunch.
  cbn [route53_ListResourceRecordSets with_Args].
  destruct (route53_ListResourceRecordSets w _ st _) as [recs|err]; [|reflexivity].
  rewrite (GetARecIp_range_any_world _ _ (with_Args w args) (with_Args w args') st).
  destruct (GetARecIp_range (lrs_ResourceRecordSets recs) (arg ++ ".")
              (with_Args w args') st) as [t p [[cur|err]|status|pn]];
    crunch; reflexivity.
Qed.

End Properties.

(** * The theorems at work on concrete runs *)

Lemma GetHostedZone_exact_match_witness :
  (exists found,
     outcome_of (GetHostedZone Fake.client "example.com."
                   (Fake.normal "203.0.113.7") Fake.records) = Returned (Ok found) /\
     In found Fake.zones /\ hz_Name found = "example.com." /\
     first_match (fun z => hz_Name z = "example.com.") Fake.zones found) /\
  outcome_of (GetHostedZone Fake.client "example.com." Fake.no_zone Fake.records) =
    Returned (Err "Can't match domain example.com. to zone").
Proof.
  split.
  - apply (GetHostedZone_exact_match Fake.client "example.com."
             (Fake.normal "203.0.113.7") Fake.records
             (mkListHostedZonesByNameOutput Fake.zones) eq_refl).
    exists (mkHostedZone "Z123" "example.com."). split; [left|]; reflexivity.
  - apply (GetHostedZone_exact_match Fake.client "example.com."
             Fake.no_zone Fake.records
             (mkListHostedZonesByNameOutput Fake.other_zones) eq_refl).
    repeat constructor; discriminate.
Defined.

Lemma GetARecIp_first_value_witness :
  outcome_of (GetARecIp Fake.client "Z123" "example.com."
                (Fake.normal "203.0.113.7") Fake.records) =
    Returned (Ok "203.0.113.7") /\
  outcome_of (GetARecIp Fake.client "Z123" "mail.example.com."
                (Fake.normal "203.0.113.7") Fake.records) =
    Returned (Err "Could not find A rec for top level name").
Proof.
  split.
  - apply (proj1 (GetARecIp_first_value Fake.client "Z123" "example.com."
                    (Fake.normal "203.0.113.7") Fake.records
                    (mkListResourceRecordSetsOutput Fake.records) eq_refl)
             (mkResourceRecordSet "example.com." RRTypeA
                [mkResourceRecord "203.0.113.7"; mkResourceRecord "203.0.113.8"]
                (Some 300%Z))
             (mkResourceRecord "203.0.113.7") [mkResourceRecord "203.0.113.8"]);
      [|reflexivity].
    eexists [_], _. split; [reflexivity|]. split; [|split; reflexivity].
    constructor; [|constructor]. intros [_ H]. discriminate H.
  - apply (proj2 (GetARecIp_first_value Fake.client "Z123" "mail.example.com."
                    (Fake.normal "203.0.113.7") Fake.records
                    (mkListResourceRecordSetsOutput Fake.records) eq_refl)).
    repeat constructor; intros [H _]; discriminate H.
Defined.

Lemma GetARecIp_empty_values_panic_witness :
  outcome_of (GetARecIp Fake.client "Z123" "example.com."
                (Fake.normal "203.0.113.7") Fake.alias_records) =
    Panicked (IndexOutOfRange 0 0).
Proof.
  apply (proj1 (GetARecIp_empty_values_panic Fake.client "Z123" "example.com."
                  (Fake.normal "203.0.113.7") Fake.alias_records
                  (mkListResourceRecordSetsOutput Fake.alias_records)
                  (mkResourceRecordSet "example.com." RRTypeA [] None) eq_refl
                  (ex_intro _ [] (ex_intro _ [Fake.a_rec "example.com." "203.0.113.7"]
                     (conj eq_refl (conj (Forall_nil _) (conj eq_refl eq_refl))))))).
  reflexivity.
Defined.

Lemma main_without_argument_panics_witness :
  length (os_Args Fake.no_argument) <= 1 /\
  main Fake.no_argument Fake.records =
    mkRun [] Fake.records (Panicked (IndexOutOfRange 1 1)) /\
  1 < length (os_Args (Fake.normal "203.0.113.9")) /\
  outcome_of (main (Fake.normal "203.0.113.9") Fake.alias_records) <>
    Panicked (IndexOutOfRange 1 2).
Proof.
  split; [apply le_n|]. split; [|split; [apply le_n|]].
  - apply (proj1 (main_without_argument_panics Fake.no_argument Fake.records)), le_n.
  - apply (proj2 (main_without_argument_panics (Fake.normal "203.0.113.9")
                    Fake.alias_records)), le_n.
Defined.

Lemma main_up_to_date_no_write_witness :
  writes (trace (main (Fake.normal "203.0.113.7") Fake.records)) = [] /\
  provider (main (Fake.normal "203.0.113.7") Fake.records) = Fake.records /\
  exit_status (outcome_of (main (Fake.normal "203.0.113.7") Fake.records)) = 0%Z /\
  last (stdout (trace (main (Fake.normal "203.0.113.7") Fake.records))) EmptyString =
    "Address already up to date, done" ++ nl.
Proof.
  exact (main_up_to_date_no_write (Fake.normal "203.0.113.7") Fake.records
           "example.com" "203.0.113.7" tt (mkHostedZone "Z123" "example.com.")
           eq_refl eq_refl eq_refl eq_refl eq_refl).
Defined.

(** C1 as stated fails when the provider rejects the write: the reported
    address (203.0.113.9) differs from the value read (203.0.113.7), the one
    UPSERT is sent, and the run ends with status 1 without printing any
    change id. *)
Lemma main_mismatch_rejected_write :
  ipify_GetIp Fake.read_only = Ok "203.0.113.9" /\
  outcome_of (GetARecIp Fake.client "Z123" "example.com." Fake.read_only Fake.records) =
    Returned (Ok "203.0.113.7") /\
  "203.0.113.9" <> "203.0.113.7" /\
  writes (trace (main Fake.read_only Fake.records)) = [Fake.upsert_request "203.0.113.9"] /\
  exit_status (outcome_of (main Fake.read_only Fake.records)) = 1%Z /\
  exit_status (outcome_of (main Fake.read_only Fake.records)) <> 0%Z /\
  stdout (trace (main Fake.read_only Fake.records)) =
    ["Current ip address: 203.0.113.9" ++ nl;
     "Found zone: Z123" ++ nl;
     "Address in route53 is 203.0.113.7" ++ nl] /\
  logged (trace (main Fake.read_only Fake.records)) =
    ["Error trying to update record: AccessDenied"].
Proof.
  repeat split; try reflexivity; discriminate.
Qed.

Lemma main_updates_on_mismatch_witness :
  "203.0.113.9" <> "203.0.113.7" /\
  writes (trace (main (Fake.normal "203.0.113.9") Fake.records)) =
    [Fake.upsert_request "203.0.113.9"] /\
  exit_status (outcome_of (main (Fake.normal "203.0.113.9") Fake.records)) = 0%Z /\
  last (stdout (trace (main (Fake.normal "203.0.113.9") Fake.records))) EmptyString =
    "Updated. Change: /change/C0001" ++ nl.
Proof.
  assert (Hneq : "203.0.113.9" <> "203.0.113.7") by discriminate.
  split; [exact Hneq|].
  destruct (main_updates_on_mismatch (Fake.normal "203.0.113.9") Fake.records
              "example.com" "203.0.113.9" tt (mkHostedZone "Z123" "example.com.")
              "203.0.113.7" eq_refl eq_refl eq_refl eq_refl eq_refl Hneq)
    as (Hwrites & _ & Haccepted & _).
  split; [exact Hwrites|].
  exact (Haccepted (mkChangeResourceRecordSetsOutput (mkChangeInfo "/change/C0001")) eq_refl).
Defined.

Lemma main_halts_at_first_failure_witness :
  nth_error (os_Args Fake.no_zone) 1 = Some "example.com" /\
  outcome_of (GetHostedZone Fake.client "example.com." Fake.no_zone Fake.records) =
    Returned (Err "Can't match domain example.com. to zone") /\
  calls (trace (main Fake.no_zone Fake.records)) =
    [EvGetIp (Ok "203.0.113.9"); EvLoadDefaultConfig (Ok tt);
     EvListHostedZonesByName (mkListHostedZonesByNameInput "example.com.")
       (Ok (mkListHostedZonesByNameOutput Fake.other_zones))] /\
  writes (trace (main Fake.no_zone Fake.records)) = [] /\
  outcome_of (main Fake.no_zone Fake.records) = Exited 1.
Proof.
  split; [reflexivity|]. split; [reflexivity|].
  destruct (main_halts_at_first_failure Fake.no_zone Fake.records "example.com" eq_refl)
    as (_ & _ & Hzone & _).
  exact (Hzone "203.0.113.9" tt "Can't match domain example.com. to zone"
           eq_refl eq_refl eq_refl).
Defined.

Lemma main_exit_status_witness :
  nth_error (os_Args Fake.no_network) 1 = Some "example.com" /\
  ipify_GetIp Fake.no_network = Err "dial tcp: i/o timeout" /\
  exit_status (outcome_of (main Fake.no_network Fake.records)) = 1%Z /\
  logged (trace (main Fake.no_network Fake.records)) =
    ["Failed getting current ip: dial tcp: i/o timeout"].
Proof.
  split; [reflexivity|]. split; [reflexivity|].
  exact (proj1 (main_exit_status Fake.no_network Fake.records "example.com" eq_refl)
           "dial tcp: i/o timeout" eq_refl).
Defined.

Lemma main_uses_one_domain_witness :
  nth_error (os_Args (Fake.normal "203.0.113.9")) 1 = Some "example.com" /\
  In (EvChangeResourceRecordSets (Fake.upsert_request "203.0.113.9")
        (Ok (mkChangeResourceRecordSetsOutput (mkChangeInfo "/change/C0001"))))
     (trace (main (Fake.normal "203.0.113.9") Fake.records)) /\
  forall c,
    In c (cb_Changes (crs_ChangeBatch (Fake.upsert_request "203.0.113.9"))) ->
    rrs_Name (ch_ResourceRecordSet c) = "example.com.".
Proof.
  assert (Hin : In (EvChangeResourceRecordSets (Fake.upsert_request "203.0.113.9")
                      (Ok (mkChangeResourceRecordSetsOutput (mkChangeInfo "/change/C0001"))))
                   (trace (main (Fake.normal "203.0.113.9") Fake.records))).
  { do 7 right. left. reflexivity. }
  split; [reflexivity|]. split; [exact Hin|].
  destruct (main_uses_one_domain (Fake.normal "203.0.113.9") Fake.records
              "example.com" eq_refl) as (_ & _ & Hwrite).
  exact (Hwrite _ _ Hin).
Defined.

Lemma main_only_upserts_witness :
  In (EvChangeResourceRecordSets (Fake.upsert_request "203.0.113.9")
        (Ok (mkChangeResourceRecordSetsOutput (mkChangeInfo "/change/C0001"))))
     (trace (main (Fake.normal "203.0.113.9") Fake.records)) /\
  exists c,
    cb_Changes (crs_ChangeBatch (Fake.upsert_request "203.0.113.9")) = [c] /\
    ch_Action c = ChangeActionUpsert /\
    ch_Action c <> ChangeActionDelete /\
    ch_Action c <> ChangeActionCreate.
Proof.
  assert (Hin : In (EvChangeResourceRecordSets (Fake.upsert_request "203.0.113.9")
                      (Ok (mkChangeResourceRecordSetsOutput (mkChangeInfo "/change/C0001"))))
                   (trace (main (Fake.normal "203.0.113.9") Fake.records))).
  { do 7 right. left. reflexivity. }
  split; [exact Hin|].
  exact (proj2 (main_only_upserts (Fake.normal "203.0.113.9") Fake.records) _ _ Hin).
Defined.

Lemma zone_lookup_errors_logged_witness :
  route53_ListHostedZonesByName Fake.no_listing Fake.client Fake.records
    (mkListHostedZonesByNameInput "example.com.") = Err "Throttling: Rate exceeded" /\
  logged (trace (main Fake.no_listing Fake.records)) =
    ["Failed to find zone: Failed to get hosted zones: Throttling: Rate exceeded"] /\
  logged (trace (main Fake.no_zone Fake.records)) =
    ["Failed to find zone: Can't match domain example.com. to zone"].
Proof.
  split; [reflexivity|]. split.
  - exact (proj1 (zone_lookup_errors_logged Fake.no_listing Fake.records
                    "example.com" "203.0.113.9" tt eq_refl eq_refl eq_refl)
             "Throttling: Rate exceeded" eq_refl).
  - apply (proj2 (zone_lookup_errors_logged Fake.no_zone Fake.records
                    "example.com" "203.0.113.9" tt eq_refl eq_refl eq_refl)
             (mkListHostedZonesByNameOutput Fake.other_zones) eq_refl).
    repeat constructor; discriminate.
Defined.

Lemma record_listing_error_logged_witness :
  route53_ListResourceRecordSets Fake.unreadable Fake.client Fake.records
    (mkListResourceRecordSetsInput "Z123") = Err "AccessDenied" /\
  outcome_of (GetARecIp Fake.client "Z123" "example.com." Fake.unreadable Fake.records) =
    Returned (Err "AccessDenied") /\
  logged (trace (main Fake.unreadable Fake.records)) =
    ["Error trying to check configured ip: AccessDenied"] /\
  exit_status (outcome_of (main Fake.unreadable Fake.records)) = 1%Z.
Proof.
  split; [reflexivity|].
  exact (record_listing_error_logged Fake.unreadable Fake.records "example.com"
           "203.0.113.9" tt (mkHostedZone "Z123" "example.com.") "AccessDenied"
           eq_refl eq_refl eq_refl eq_refl eq_refl).
Defined.

Lemma main_dies_of_record_panic_witness :
  outcome_of (GetARecIp Fake.client "Z123" "example.com."
                (Fake.normal "203.0.113.9") Fake.alias_records) =
    Panicked (IndexOutOfRange 0 0) /\
  outcome_of (main (Fake.normal "203.0.113.9") Fake.alias_records) =
    Panicked (IndexOutOfRange 0 0) /\
  exit_status (outcome_of (main (Fake.normal "203.0.113.9") Fake.alias_records)) = 2%Z /\
  stdout (trace (main (Fake.normal "203.0.113.9") Fake.alias_records)) =
    ["Current ip address: 203.0.113.9" ++ nl; "Found zone: Z123" ++ nl] /\
  logged (trace (main (Fake.normal "203.0.113.9") Fake.alias_records)) = [] /\
  writes (trace (main (Fake.normal "203.0.113.9") Fake.alias_records)) = [] /\
  provider (main (Fake.normal "203.0.113.9") Fake.alias_records) = Fake.alias_records.
Proof.
  split; [reflexivity|].
  exact (main_dies_of_record_panic (Fake.normal "203.0.113.9") Fake.alias_records
           "example.com" "203.0.113.9" tt (mkHostedZone "Z123" "example.com.")
           (IndexOutOfRange 0 0) eq_refl eq_refl eq_refl eq_refl eq_refl).
Defined.


Lemma main_write_only_if_witness :
  In (EvChangeResourceRecordSets (Fake.upsert_request "203.0.113.9") (Err "AccessDenied"))
     (trace (main Fake.read_only Fake.records)) /\
  exists ip cur,
    ipify_GetIp Fake.read_only = Ok ip /\
    outcome_of (GetARecIp Fake.client "Z123" "example.com." Fake.read_only Fake.records) =
      Returned (Ok "203.0.113.7") /\
    ip <> cur.
Proof.
  assert (Hin : In (EvChangeResourceRecordSets (Fake.upsert_request "203.0.113.9")
                      (Err "AccessDenied"))
                   (trace (main Fake.read_only Fake.records))).
  { do 7 right. left. reflexivity. }
  split; [exact Hin|].
  destruct (main_write_only_if Fake.read_only Fake.records _ _ Hin)
    as (arg & ip & cfg & found & cur & _ & Hip & _ & _ & _ & Hneq & _).
  exists ip, cur. split; [exact Hip|]. split; [reflexivity|exact Hneq].
Defined.

Lemma main_success_only_if_witness :
  exit_status (outcome_of (main (Fake.normal "203.0.113.7") Fake.records)) = 0%Z /\
  exists ip, ipify_GetIp (Fake.normal "203.0.113.7") = Ok ip.
Proof.
  split; [reflexivity|].
  destruct (main_success_only_if (Fake.normal "203.0.113.7") Fake.records eq_refl)
    as (arg & ip & cfg & found & cur & _ & Hip & _).
  exists ip. exact Hip.
Defined.

Lemma main_reads_only_first_argument_witness :
  main (with_Args (Fake.normal "203.0.113.9") ["r53"; "example.com"]) Fake.records =
  main (with_Args (Fake.normal "203.0.113.9")
          ["/usr/local/bin/route53Update"; "example.com"; "--dry-run"]) Fake.records.
Proof.
  exact (main_reads_only_first_argument (Fake.normal "203.0.113.9") Fake.records
           ["r53"; "example.com"]
           ["/usr/local/bin/route53Update"; "example.com"; "--dry-run"]
           "example.com" eq_refl eq_refl).
Defined.
